(** * ai-coach: the recommendation engine of [rules.py]

    A shallow embedding of [rules.py] (flag evaluation, focus selection,
    session block composition and plan assembly) together with the
    properties stated about it, followed by the message formatter of
    [telegram_utils.py] and the OAuth state store of [main.py].

    Conventions of the embedding:
    - Python [float] is an IEEE-754 binary64 number: Rocq's primitive
      [float], whose operations round exactly as CPython's do;
    - Python [int] is unbounded: [Z];
    - Python [str] is a [string] holding the UTF-8 bytes of the literal;
    - [Optional[T]] is [option T], with [None] for Python's [None];
    - the [flags] dictionary is a [gmap string bool];
    - whatever can raise in Python (arithmetic or ordering on [None],
      true division, subscripting a dictionary) returns in the [result]
      monad, so that "never throws" is a statement and not a by-product
      of the encoding;
    - the clock reading [time.time()] is an input of the functions that
      read it. It is a finite binary64 number, hence a rational, and the
      code only truncates it ([int]) and compares it with integers, both
      of which Python does exactly: it is a [Q]. *)

From Stdlib Require Import ZArith List PrimFloat Ascii DecimalString QArith Qround Lqa.
From stdpp Require Import base option list gmap strings.

Local Open Scope Z_scope.
Local Open Scope string_scope.

(** ** A small model of the Python runtime *)

Module Py.

(** The exceptions the operations used by [rules.py] can raise. *)
Inductive exn : Type :=
| TypeError
| ZeroDivisionError
| KeyError (key : string).

Inductive result (A : Type) : Type :=
| Ok (a : A)
| Raise (e : exn).
Arguments Ok {A} a.
Arguments Raise {A} e.

Definition bind {A B : Type} (m : result A) (k : A -> result B) : result B :=
  match m with
  | Ok a => k a
  | Raise e => Raise e
  end.

(** [x is None]. *)
Definition is_none {A : Type} (x : option A) : bool :=
  match x with
  | Some _ => false
  | None => true
  end.

(** [x == c] where [x : Optional[float]]: [None] equals no number,
    and neither does a NaN; both zeros equal [0]. *)
Definition opt_float_eq (x : option float) (c : float) : bool :=
  match x with
  | Some v => PrimFloat.eqb v c
  | None => false
  end.

(** [x - y] where both are [Optional[float]]: [None] is no operand. *)
Definition sub_ (x y : option float) : result float :=
  match x, y with
  | Some v, Some w => Ok (PrimFloat.sub v w)
  | _, _ => Raise TypeError
  end.

(** [x / y] with [y : Optional[float]]: CPython raises on a zero
    divisor (of either sign) and otherwise performs the IEEE
    division. *)
Definition truediv (x : float) (y : option float) : result float :=
  match y with
  | Some w =>
      if PrimFloat.eqb w 0%float then Raise ZeroDivisionError
      else Ok (PrimFloat.div x w)
  | None => Raise TypeError
  end.

(** [x < c] and [x > c] where [x : Optional[float]]: ordering [None]
    against a number raises. *)
Definition lt_ (x : option float) (c : float) : result bool :=
  match x with
  | Some v => Ok (PrimFloat.ltb v c)
  | None => Raise TypeError
  end.

Definition gt_ (x : option float) (c : float) : result bool :=
  match x with
  | Some v => Ok (PrimFloat.ltb c v)
  | None => Raise TypeError
  end.

(** [x < c] where [x : Optional[int]]. *)
Definition int_lt (x : option Z) (c : Z) : result bool :=
  match x with
  | Some v => Ok (Z.ltb v c)
  | None => Raise TypeError
  end.

(** [d[k]] on a dictionary. *)
Definition getitem {V : Type} (d : gmap string V) (k : string) : result V :=
  match d !! k with
  | Some v => Ok v
  | None => Raise (KeyError k)
  end.

(** [a or b] on booleans, [b] being evaluated only when [a] is false. *)
Definition or_ (a b : result bool) : result bool :=
  bind a (fun x => if x then Ok true else b).

(** [a and b] on booleans, [b] being evaluated only when [a] is true. *)
Definition and_ (a b : result bool) : result bool :=
  bind a (fun x => if x then b else Ok false).

(** [x == s] where [x : Optional[str]]: [None] equals no string. *)
Definition opt_str_eq (x : option string) (s : string) : bool :=
  match x with
  | Some y => String.eqb y s
  | None => false
  end.

(** [x in xs] for a list (or tuple) of strings. *)
Definition str_in (x : string) (xs : list string) : bool :=
  existsb (String.eqb x) xs.

(** [x in xs] where [x : Optional[str]] and [xs] is a tuple of strings. *)
Definition opt_str_in (x : option string) (xs : list string) : bool :=
  existsb (opt_str_eq x) xs.

End Py.

Import Py.

Notation "'let!' x ':=' m 'in' k" := (Py.bind m (fun x => k))
  (at level 10, x name, m at level 100, k at level 200).

(** ** The data model *)

Record DailySummary : Type := mkDailySummary {
  date : string;
  hrv_ms : option float;
  rhr_bpm : option float;
  sleep_min : option Z;
  temp_delta : option float;
  load_7d : option float;
  avg7_hrv_ms : option float;
  avg7_rhr_bpm : option float;
  cycle_phase : option string;
  context : list string;
  time_min : Z
}.

(** A session block: the dictionary with keys [name], [duration_min]
    and [content] built by [_short_session_blocks]. *)
Record Block : Type := mkBlock {
  name : string;
  duration_min : Z;
  content : list string
}.

(** The dictionary returned by [generate_plan]. *)
Record Plan : Type := mkPlan {
  day_focus : string;
  sessions : list Block;
  recovery : list string;
  flags : gmap string bool;
  cycle_note : option string;
  notes : string
}.

(** ** [rules.py] *)

Definition _percent_delta (value baseline : option float) : result (option float) :=
  let! unusable :=
    or_ (Ok (is_none value))
        (or_ (Ok (is_none baseline)) (Ok (opt_float_eq baseline 0%float))) in
  if unusable then Ok None
  else
    let! d := sub_ value baseline in
    let! q := truediv d baseline in
    Ok (Some (PrimFloat.mul q 100%float)).

Definition compute_flags (s : DailySummary) : result (gmap string bool) :=
  let flags : gmap string bool :=
    <["low_hrv" := false]>
    (<["high_rhr" := false]>
    (<["sleep_debt" := false]>
    (<["high_load" := false]>
    (<["late_luteal" := opt_str_eq (cycle_phase s) "late_luteal"]> ∅)))) in
  let! hrv_delta := _percent_delta (hrv_ms s) (avg7_hrv_ms s) in
  let! low := and_ (Ok (negb (is_none hrv_delta))) (lt_ hrv_delta (-10)%float) in
  let flags := if low then <["low_hrv" := true]> flags else flags in
  let! rhr_delta := _percent_delta (rhr_bpm s) (avg7_rhr_bpm s) in
  let! high := and_ (Ok (negb (is_none rhr_delta))) (gt_ rhr_delta 5%float) in
  let flags := if high then <["high_rhr" := true]> flags else flags in
  let! short := and_ (Ok (negb (is_none (sleep_min s)))) (int_lt (sleep_min s) 360) in
  let flags := if short then <["sleep_debt" := true]> flags else flags in
  let! loaded := and_ (Ok (negb (is_none (load_7d s)))) (gt_ (load_7d s) 600%float) in
  let flags := if loaded then <["high_load" := true]> flags else flags in
  Ok flags.

Definition _pick_focus (flags : gmap string bool) (cycle_phase : option string)
  : result string :=
  let! red := or_ (getitem flags "low_hrv")
        (or_ (getitem flags "high_rhr")
        (or_ (getitem flags "sleep_debt")
        (or_ (getitem flags "high_load")
             (getitem flags "late_luteal")))) in
  if red then Ok "Recovery / Deload"
  else if opt_str_in cycle_phase ["follicular"; "ovulatory"] then Ok "Speed / Strength"
  else Ok "Aerobic Base / Skills".

Definition _short_session_blocks (focus : string) (time_min : Z) (context : list string)
  : list Block :=
  let reno := str_in "renovation" context in
  if Z.leb time_min 15 then
    if String.eqb focus "Recovery / Deload" then
      [ mkBlock "Mobility" 8 ["hips"; "t-spine"; "calves"];
        mkBlock "Core" 5 ["side plank 2×30″ each"; "dead-bug 2×8"] ]
    else if String.eqb focus "Speed / Strength" && negb reno then
      [ mkBlock "Accel" 10 ["boots: 3×20 m accel (full rec)"; "2×20 m strides"];
        mkBlock "Core" 5 ["pallof press 2×8 each"] ]
    else
      [ mkBlock "Z2 brisk walk" 12 ["RPE 3–4"] ]
  else if Z.leb time_min 30 then
    if String.eqb focus "Recovery / Deload" then
      [ mkBlock "Mobility" 8 ["hips"; "t-spine"; "calves"];
        mkBlock "Technique" 10 ["wall drill A/B"; "4×20 m strides (boots)"];
        mkBlock "Core" 5 ["side plank 3×30″ each"] ]
    else if String.eqb focus "Speed / Strength" && negb reno then
      [ mkBlock "Accel + Plyo" 12 ["boots: 4×20 m accel"; "broad jump 3×4"];
        mkBlock "Strength (at-home)" 10 ["backpack split squat 3×8-e"];
        mkBlock "Core" 5 ["dead-bug 3×8"] ]
    else
      [ mkBlock "Z2 run / bike" 20 ["HR < 75% max"];
        mkBlock "Mobility" 8 ["hips"; "glutes"] ]
  else
    if String.eqb focus "Recovery / Deload" then
      [ mkBlock "Z2 run / bike" 25 ["HR < 75% max"];
        mkBlock "Mobility" 10 ["full lower + t-spine"];
        mkBlock "Core" 10 ["side plank 3×30″"; "dead-bug 3×10"] ]
    else if String.eqb focus "Speed / Strength" && negb reno then
      [ mkBlock "Accel + Plyo" 15 ["boots: 4×20 m accel"; "fly 2×20 m"; "broad jump 3×3"];
        mkBlock "Strength (at-home)" 20 ["backpack front squat 4×6"; "single-leg RDL 3×8-e"];
        mkBlock "Core" 8 ["pallof press 3×8-e"] ]
    else
      [ mkBlock "Z2 long" 35 ["HR < 75% max"];
        mkBlock "Technique" 10 ["passing / ball-handling (trainers)"] ].

Definition generate_plan (s : DailySummary) : result Plan :=
  let! flags := compute_flags s in
  let! focus := _pick_focus flags (cycle_phase s) in
  let blocks := _short_session_blocks focus (time_min s) (context s) in
  let recovery : list string := [] in
  let! sleep_debt := getitem flags "sleep_debt" in
  let recovery :=
    if sleep_debt
    then (recovery ++ ["Aim 7h30–8h sleep tonight; cool room; wind-down 30 min."])%list
    else recovery in
  let recovery := (recovery ++ ["+500 ml electrolytes after session"])%list in
  let recovery :=
    if opt_str_eq (cycle_phase s) "late_luteal"
    then (recovery ++ ["Gentle p.m. mobility 10 min; prioritize sleep."])%list
    else recovery in
  let cycle_note : option string :=
    if opt_str_in (cycle_phase s) ["follicular"; "ovulatory"]
    then Some "You’re in a high-performance window—OK to push intensity if you feel fresh."
    else if opt_str_eq (cycle_phase s) "late_luteal"
    then Some "Late luteal—deload 15–25% and favor low-impact work."
    else None in
  Ok {| day_focus := focus;
        sessions := blocks;
        recovery := recovery;
        flags := flags;
        cycle_note := cycle_note;
        notes := "Session adapted to time and context; avoid stacking two hard days." |}.

(** ** [telegram_utils.py] *)

(** The one-character string "\n". *)
Definition newline : string := String "010"%char EmptyString.

(** [str(n)] for an [int], as an f-string prints it: decimal digits,
    with a leading minus sign for a negative number. *)
Definition str_of_int (n : Z) : string := NilZero.string_of_int (Z.to_int n).

(** Truthiness of an [Optional[str]]: [None] and the empty string are
    false. *)
Definition truthy (x : option string) : bool :=
  match x with
  | Some (String _ _) => true
  | _ => false
  end.

(** [format_plan_for_telegram], applied to the dictionary that
    [generate_plan] returns (all subscripted keys are present). *)
Definition format_plan_for_telegram (plan : Plan) : string :=
  let msg := "*Day Focus:* " ++ day_focus plan ++ newline in
  let msg := msg ++ "*Sessions:*" ++ newline in
  let msg :=
    fold_left
      (fun msg s =>
         msg ++ (("  - " ++ name s ++ " (" ++ str_of_int (duration_min s) ++ " min): ")
                   ++ String.concat ", " (content s) ++ newline))
      (sessions plan) msg in
  let msg := msg ++ "*Recovery:*" ++ newline in
  let msg :=
    fold_left (fun msg r => msg ++ ("  - " ++ r ++ newline)) (recovery plan) msg in
  let msg :=
    if truthy (cycle_note plan)
    then msg ++ ("*Cycle Note:* " ++ default "" (cycle_note plan) ++ newline)
    else msg in
  msg ++ ("_Notes:_ " ++ notes plan ++ newline).

(** ** [main.py]: the OAuth state store

    [STATE_STORE] is the module-level dictionary from state token to
    expiry (epoch seconds); the functions take it and return it. The
    token drawn by [secrets.token_urlsafe] and the clock reading are
    inputs. *)

(** [int(x)] for a float [x]: truncation toward zero. *)
Definition int_of_float (x : Q) : Z := Z.quot (Qnum x) (Z.pos (Qden x)).

(** [make_state]: the fresh token is stored with an expiry ten minutes
    after the (truncated) clock reading, and returned. *)
Definition make_state (STATE_STORE : gmap string Z) (token : string) (now : Q)
  : gmap string Z * string :=
  let s := token in
  (<[s := int_of_float now + 600]> STATE_STORE, s).

(** [validate_state]: [not exp] holds for a missing state and for a
    stored expiry of 0, and leaves the store as it is; otherwise the
    state is popped, and accepted unless the clock has passed its
    expiry. *)
Definition validate_state (STATE_STORE : gmap string Z) (now : Q) (s : string)
  : gmap string Z * bool :=
  let exp := STATE_STORE !! s in
  match exp with
  | None => (STATE_STORE, false)
  | Some e =>
      if Z.eqb e 0 then (STATE_STORE, false)
      else if negb (Qle_bool now (inject_Z e)) then (delete s STATE_STORE, false)
      else (delete s STATE_STORE, true)
  end.

(** ** Sample days *)

(** A day whose resting heart rate (63) sits exactly 5 percent above
    its baseline (60). *)
Definition rhr_boundary_day : DailySummary :=
  {| date := "2024-03-01"; hrv_ms := None; rhr_bpm := Some 63%float;
     sleep_min := None; temp_delta := None; load_7d := None;
     avg7_hrv_ms := None; avg7_rhr_bpm := Some 60%float;
     cycle_phase := None; context := []; time_min := 30 |}.

(** A day whose heart-rate variability (50) is a sixth below its
    baseline (60). *)
Definition low_hrv_day : DailySummary :=
  {| date := "2024-03-04"; hrv_ms := Some 50%float; rhr_bpm := None;
     sleep_min := None; temp_delta := None; load_7d := None;
     avg7_hrv_ms := Some 60%float; avg7_rhr_bpm := None;
     cycle_phase := Some "ovulatory"; context := []; time_min := 10 |}.

(** A day with no reading at all, in the given phase, with the given
    context tags and minutes available. *)
Definition bare_day (phase : option string) (ctx : list string) (t : Z) : DailySummary :=
  {| date := "2024-03-02"; hrv_ms := None; rhr_bpm := None;
     sleep_min := None; temp_delta := None; load_7d := None;
     avg7_hrv_ms := None; avg7_rhr_bpm := None;
     cycle_phase := phase; context := ctx; time_min := t |}.

(** A follicular day after a short night (five hours of sleep). *)
Definition short_night_day : DailySummary :=
  {| date := "2024-03-03"; hrv_ms := None; rhr_bpm := None;
     sleep_min := Some 300; temp_delta := None; load_7d := None;
     avg7_hrv_ms := None; avg7_rhr_bpm := None;
     cycle_phase := Some "follicular"; context := []; time_min := 20 |}.

(** A dictionary that holds [low_hrv] only. *)
Definition only_low_hrv (b : bool) : gmap string bool := {["low_hrv" := b]}.

(** A plan with an empty cycle note, and a block without content. *)
Definition terse_plan : Plan :=
  {| day_focus := "Aerobic Base / Skills";
     sessions := [mkBlock "Z2 brisk walk" 12 ["RPE 3–4"]; mkBlock "Stretch" 0 []];
     recovery := [];
     flags := ∅;
     cycle_note := Some "";
     notes := "n/a" |}.

(** ** Auxiliary facts *)

(** The value each flag receives, read off the guards of [compute_flags].
    They are only used to state the lookup lemma below. *)
Definition delta_of (value baseline : option float) : option float :=
  match value, baseline with
  | Some v, Some b =>
      if PrimFloat.eqb b 0%float then None
      else Some (PrimFloat.mul (PrimFloat.div (PrimFloat.sub v b) b) 100%float)
  | _, _ => None
  end.

Definition low_hrv_of (s : DailySummary) : bool :=
  match delta_of (hrv_ms s) (avg7_hrv_ms s) with
  | Some d => PrimFloat.ltb d (-10)%float
  | None => false
  end.

Definition high_rhr_of (s : DailySummary) : bool :=
  match delta_of (rhr_bpm s) (avg7_rhr_bpm s) with
  | Some d => PrimFloat.ltb 5%float d
  | None => false
  end.

Definition sleep_debt_of (s : DailySummary) : bool :=
  match sleep_min s with
  | Some m => Z.ltb m 360
  | None => false
  end.

Definition high_load_of (s : DailySummary) : bool :=
  match load_7d s with
  | Some l => PrimFloat.ltb 600%float l
  | None => false
  end.

Definition late_luteal_of (s : DailySummary) : bool :=
  opt_str_eq (cycle_phase s) "late_luteal".

(** Total minutes of a list of blocks. *)
Definition total_minutes (bs : list Block) : Z :=
  fold_right (fun b acc => duration_min b + acc) 0 bs.

(** The keys of the flags dictionary, in the order [_pick_focus] reads
    them. *)
Definition flag_keys : list string :=
  ["low_hrv"; "high_rhr"; "sleep_debt"; "high_load"; "late_luteal"].

(** The names of the blocks that load the legs: acceleration,
    plyometrics and strength work. *)
Definition heavy_names : list string :=
  ["Accel"; "Accel + Plyo"; "Strength (at-home)"].

(** Number of occurrences of a character in a string. *)
Fixpoint count_char (c : ascii) (s : string) : nat :=
  match s with
  | EmptyString => 0
  | String a rest => (if Ascii.eqb a c then 1 else 0) + count_char c rest
  end.

(** Number of newline characters, that is of lines, of a message. *)
Definition line_count (s : string) : nat := count_char "010"%char s.

(** A string without a newline. *)
Definition single_line (s : string) : Prop := line_count s = 0%nat.

(** A plan none of whose strings holds a newline. *)
Definition single_line_plan (p : Plan) : Prop :=
  single_line (day_focus p) /\
  Forall (fun b => single_line (name b) /\ Forall single_line (content b)) (sessions p) /\
  Forall single_line (recovery p) /\
  single_line (default "" (cycle_note p)) /\
  single_line (notes p).

(** Case analysis on every guard left in the goal. *)
Ltac case_guards :=
  repeat match goal with
         | |- context [match ?o with Some _ => _ | None => _ end] => destruct o eqn:?
         | |- context [if ?b then _ else _] => destruct b eqn:?
         end.

(** Case analysis on the time band of [_short_session_blocks]. *)
Ltac by_band t :=
  unfold _short_session_blocks;
  destruct (Z.leb t 15) eqn:?; [|destruct (Z.leb t 30) eqn:?].

(** Turn the boolean facts about the time band into inequalities. *)
Ltac band_facts :=
  repeat match goal with
         | H : Z.leb _ _ = true |- _ => apply Z.leb_le in H
         | H : Z.leb _ _ = false |- _ => apply Z.leb_gt in H
         end.

Section Runtime.

Lemma opt_str_eq_true (x : option string) (s : string) :
  opt_str_eq x s = true <-> x = Some s.
Proof.
  destruct x as [y|]; simpl.
  - rewrite String.eqb_eq. split; [intros ->; reflexivity | congruence].
  - split; discriminate.
Qed.

Lemma opt_str_eq_false (x : option string) (s : string) :
  opt_str_eq x s = false <-> x <> Some s.
Proof.
  rewrite <- opt_str_eq_true. destruct (opt_str_eq x s); split; congruence.
Qed.

Lemma opt_str_in_two (x : option string) (a b : string) :
  opt_str_in x [a; b] = true <-> x = Some a \/ x = Some b.
Proof.
  unfold opt_str_in; simpl.
  rewrite orb_false_r, orb_true_iff, !opt_str_eq_true. reflexivity.
Qed.

Lemma str_in_true (x : string) (xs : list string) :
  str_in x xs = true <-> In x xs.
Proof.
  unfold str_in. rewrite existsb_exists. split.
  - intros (y & Hy & Heq). apply String.eqb_eq in Heq. congruence.
  - intros H. exists x. split; [assumption | apply String.eqb_refl].
Qed.

(** [_percent_delta] never raises: the guard on a zero baseline
    shields the division. *)
Lemma _percent_delta_eq (value baseline : option float) :
  _percent_delta value baseline = Ok (delta_of value baseline).
Proof.
  destruct value as [v|], baseline as [b|]; try reflexivity.
  unfold _percent_delta, truediv. cbn.
  destruct (PrimFloat.eqb b 0); reflexivity.
Qed.

End Runtime.

(** What [compute_flags] stores under each of the five keys. *)
Lemma compute_flags_lookup (s : DailySummary) :
  exists fl,
    compute_flags s = Ok fl /\
    fl !! "low_hrv" = Some (low_hrv_of s) /\
    fl !! "high_rhr" = Some (high_rhr_of s) /\
    fl !! "sleep_debt" = Some (sleep_debt_of s) /\
    fl !! "high_load" = Some (high_load_of s) /\
    fl !! "late_luteal" = Some (late_luteal_of s).
Proof.
  unfold compute_flags.
  rewrite !_percent_delta_eq.
  unfold low_hrv_of, high_rhr_of, sleep_debt_of, high_load_of, late_luteal_of.
  destruct (delta_of (hrv_ms s) (avg7_hrv_ms s)) as [dh|];
    destruct (delta_of (rhr_bpm s) (avg7_rhr_bpm s)) as [dr|];
    destruct (sleep_min s) as [m|];
    destruct (load_7d s) as [l|];
    cbn [bind and_ is_none negb lt_ gt_ int_lt];
    case_guards;
    (eexists; split; [reflexivity | repeat split; reflexivity]).
Qed.

(** [_pick_focus] on a dictionary that holds the five keys. *)
Lemma _pick_focus_eq (fl : gmap string bool) (ph : option string) (a b c d e : bool) :
  fl !! "low_hrv" = Some a ->
  fl !! "high_rhr" = Some b ->
  fl !! "sleep_debt" = Some c ->
  fl !! "high_load" = Some d ->
  fl !! "late_luteal" = Some e ->
  _pick_focus fl ph =
  Ok (if a || b || c || d || e then "Recovery / Deload"
      else if opt_str_in ph ["follicular"; "ovulatory"] then "Speed / Strength"
      else "Aerobic Base / Skills").
Proof.
  intros Ha Hb Hc Hd He.
  unfold _pick_focus, or_, getitem. rewrite Ha, Hb, Hc, Hd, He.
  destruct a, b, c, d, e; cbn [bind orb];
    destruct (opt_str_in ph ["follicular"; "ovulatory"]); reflexivity.
Qed.

(** The plan [generate_plan] assembles, field by field. *)
Lemma generate_plan_eq (s : DailySummary) :
  exists fl focus,
    compute_flags s = Ok fl /\
    fl !! "low_hrv" = Some (low_hrv_of s) /\
    fl !! "high_rhr" = Some (high_rhr_of s) /\
    fl !! "sleep_debt" = Some (sleep_debt_of s) /\
    fl !! "high_load" = Some (high_load_of s) /\
    fl !! "late_luteal" = Some (late_luteal_of s) /\
    _pick_focus fl (cycle_phase s) = Ok focus /\
    focus =
      (if low_hrv_of s || high_rhr_of s || sleep_debt_of s || high_load_of s
          || late_luteal_of s
       then "Recovery / Deload"
       else if opt_str_in (cycle_phase s) ["follicular"; "ovulatory"]
       then "Speed / Strength"
       else "Aerobic Base / Skills") /\
    generate_plan s =
    Ok {| day_focus := focus;
          sessions := _short_session_blocks focus (time_min s) (context s);
          recovery :=
            ((if sleep_debt_of s
              then ["Aim 7h30–8h sleep tonight; cool room; wind-down 30 min."]
              else []) ++
             ["+500 ml electrolytes after session"] ++
             (if late_luteal_of s
              then ["Gentle p.m. mobility 10 min; prioritize sleep."]
              else []))%list;
          flags := fl;
          cycle_note :=
            (if opt_str_in (cycle_phase s) ["follicular"; "ovulatory"]
             then Some "You’re in a high-performance window—OK to push intensity if you feel fresh."
             else if opt_str_eq (cycle_phase s) "late_luteal"
             then Some "Late luteal—deload 15–25% and favor low-impact work."
             else None);
          notes := "Session adapted to time and context; avoid stacking two hard days." |}.
Proof.
  destruct (compute_flags_lookup s) as (fl & Hfl & Ha & Hb & Hc & Hd & He).
  pose proof (_pick_focus_eq fl (cycle_phase s) _ _ _ _ _ Ha Hb Hc Hd He) as Hpick.
  eexists fl, _. repeat (split; [eassumption|]). split; [reflexivity|].
  unfold generate_plan. rewrite Hfl. cbn [bind]. rewrite Hpick. cbn [bind].
  unfold getitem. rewrite Hc. cbn [bind].
  unfold late_luteal_of.
  destruct (sleep_debt_of s), (opt_str_eq (cycle_phase s) "late_luteal"); reflexivity.
Qed.

(** ** The flag evaluator *)

Local Open Scope float_scope.

(** C2: [compute_flags] returns a dictionary in which [low_hrv] is a
    boolean, true iff [hrv_ms] and [avg7_hrv_ms] are both present, the
    baseline is not zero and the percent delta
    [(hrv_ms - avg7_hrv_ms) / avg7_hrv_ms * 100] is below -10; with a
    reading absent or a zero baseline the flag is false. *)
Theorem low_hrv_iff (s : DailySummary) :
  exists fl b,
    compute_flags s = Ok fl /\
    fl !! "low_hrv" = Some b /\
    (b = true <->
     exists v a,
       hrv_ms s = Some v /\ avg7_hrv_ms s = Some a /\
       PrimFloat.eqb a 0 = false /\
       PrimFloat.ltb ((v - a) / a * 100) (-10) = true) /\
    (hrv_ms s = None \/ avg7_hrv_ms s = None \/
     (exists a, avg7_hrv_ms s = Some a /\ PrimFloat.eqb a 0 = true) ->
     b = false).
Proof.
  destruct (compute_flags_lookup s) as (fl & Hfl & Ha & _).
  exists fl, (low_hrv_of s). split; [assumption|]. split; [assumption|].
  unfold low_hrv_of, delta_of.
  destruct (hrv_ms s) as [v|], (avg7_hrv_ms s) as [a|].
  - destruct (PrimFloat.eqb a 0) eqn:Hz; split.
    + split; [discriminate|]. intros (v' & a' & Hv & Hb & Hnz & _).
      injection Hb as <-. congruence.
    + reflexivity.
    + split.
      * intros Hlt. exists v, a. auto.
      * intros (v' & a' & Hv & Hb & _ & Hlt).
        injection Hv as <-. injection Hb as <-. assumption.
    + intros [Hv | [Hb | (a' & Hb & Hz')]]; try discriminate.
      injection Hb as <-. congruence.
  - split; [|reflexivity].
    split; [discriminate|]. intros (v' & a' & _ & Hb & _). discriminate.
  - split; [|reflexivity].
    split; [discriminate|]. intros (v' & a' & Hv & _). discriminate.
  - split; [|reflexivity].
    split; [discriminate|]. intros (v' & a' & Hv & _). discriminate.
Qed.

(** C3: with [rhr_bpm] and [avg7_rhr_bpm] present and a baseline that
    is not zero, [high_rhr] is true iff 5 is strictly below the percent
    delta; a delta of exactly 5 leaves the flag false. *)
Theorem high_rhr_strict (s : DailySummary) (r a : float) :
  rhr_bpm s = Some r ->
  avg7_rhr_bpm s = Some a ->
  PrimFloat.eqb a 0 = false ->
  exists fl b,
    compute_flags s = Ok fl /\
    fl !! "high_rhr" = Some b /\
    (b = true <-> PrimFloat.ltb 5 ((r - a) / a * 100) = true) /\
    ((r - a) / a * 100 = 5 -> b = false).
Proof.
  intros Hr Ha Hnz.
  destruct (compute_flags_lookup s) as (fl & Hfl & _ & Hb & _).
  exists fl, (high_rhr_of s). split; [assumption|]. split; [assumption|].
  unfold high_rhr_of, delta_of. rewrite Hr, Ha, Hnz.
  split; [reflexivity|].
  intros ->. reflexivity.
Qed.

(** On the boundary day the dictionary holds [false] under [high_rhr];
    on the low-HRV day it holds [true] under [low_hrv]. *)
Example rhr_boundary_flag :
  exists fl, compute_flags rhr_boundary_day = Ok fl /\ fl !! "high_rhr" = Some false.
Proof. eexists. split; reflexivity. Qed.

Example low_hrv_day_flag :
  exists fl, compute_flags low_hrv_day = Ok fl /\ fl !! "low_hrv" = Some true.
Proof. eexists. split; reflexivity. Qed.

Lemma high_rhr_strict_witness :
  exists fl b,
    compute_flags rhr_boundary_day = Ok fl /\
    fl !! "high_rhr" = Some b /\
    (b = true <-> PrimFloat.ltb 5 ((63 - 60) / 60 * 100) = true) /\
    ((63 - 60) / 60 * 100 = 5 -> b = false).
Proof.
  apply (high_rhr_strict rhr_boundary_day 63 60); reflexivity.
Defined.

Local Close Scope float_scope.

(** ** The focus selector *)

(** C1: as soon as one computed flag is true the plan's focus is
    "Recovery / Deload", whatever the cycle phase; with the five flags
    false the focus is "Speed / Strength" exactly in the follicular and
    ovulatory phases and "Aerobic Base / Skills" in every other case. *)
Theorem red_flag_overrides_phase (s : DailySummary) :
  exists fl p,
    compute_flags s = Ok fl /\
    generate_plan s = Ok p /\
    ((fl !! "low_hrv" = Some true \/ fl !! "high_rhr" = Some true \/
      fl !! "sleep_debt" = Some true \/ fl !! "high_load" = Some true \/
      fl !! "late_luteal" = Some true) ->
     day_focus p = "Recovery / Deload") /\
    ((fl !! "low_hrv" = Some false /\ fl !! "high_rhr" = Some false /\
      fl !! "sleep_debt" = Some false /\ fl !! "high_load" = Some false /\
      fl !! "late_luteal" = Some false) ->
     (day_focus p = "Speed / Strength" <->
      cycle_phase s = Some "follicular" \/ cycle_phase s = Some "ovulatory") /\
     (~ (cycle_phase s = Some "follicular" \/ cycle_phase s = Some "ovulatory") ->
      day_focus p = "Aerobic Base / Skills")).
Proof.
  destruct (generate_plan_eq s)
    as (fl & focus & Hfl & Ha & Hb & Hc & Hd & He & _ & Hfocus & Hplan).
  eexists fl, _. split; [exact Hfl|]. split; [exact Hplan|].
  cbn [day_focus]. rewrite Ha, Hb, Hc, Hd, He. subst focus. split.
  - intros Hred.
    assert (low_hrv_of s || high_rhr_of s || sleep_debt_of s || high_load_of s
            || late_luteal_of s = true) as ->; [|reflexivity].
    rewrite !orb_true_iff.
    destruct Hred as [H | [H | [H | [H | H]]]]; injection H as ->; tauto.
  - intros (Ha' & Hb' & Hc' & Hd' & He').
    injection Ha' as ->. injection Hb' as ->. injection Hc' as ->.
    injection Hd' as ->. injection He' as ->. cbn [orb].
    pose proof (opt_str_in_two (cycle_phase s) "follicular" "ovulatory") as Hin.
    destruct (opt_str_in (cycle_phase s) ["follicular"; "ovulatory"]).
    + split; [|intros Hn; exfalso; apply Hn; apply Hin; reflexivity].
      split; [intros _; apply Hin; reflexivity | reflexivity].
    + split; [|reflexivity].
      split; [discriminate|]. intros H. apply Hin in H. discriminate.
Qed.

(** C1, on a concrete day: a follicular day after five hours of sleep
    is a recovery day. *)
Example short_night_is_recovery :
  exists p, generate_plan short_night_day = Ok p /\
            day_focus p = "Recovery / Deload" /\
            flags p !! "sleep_debt" = Some true.
Proof. eexists. split; [reflexivity|]. split; reflexivity. Qed.

(** ** The plan assembler *)

(** C6: the recovery list is the sleep message when [sleep_debt] is
    set, then the electrolytes line, then the mobility line when the
    phase is late luteal, always in this order. *)
Theorem recovery_order (s : DailySummary) :
  exists fl p,
    compute_flags s = Ok fl /\
    generate_plan s = Ok p /\
    recovery p =
    ((if bool_decide (fl !! "sleep_debt" = Some true)
      then ["Aim 7h30–8h sleep tonight; cool room; wind-down 30 min."]
      else []) ++
     ["+500 ml electrolytes after session"] ++
     (if bool_decide (cycle_phase s = Some "late_luteal")
      then ["Gentle p.m. mobility 10 min; prioritize sleep."]
      else []))%list.
Proof.
  destruct (generate_plan_eq s)
    as (fl & focus & Hfl & _ & _ & Hc & _ & _ & _ & _ & Hplan).
  eexists fl, _. split; [exact Hfl|]. split; [exact Hplan|].
  cbn [recovery]. rewrite Hc. unfold late_luteal_of.
  f_equal; [|f_equal].
  - destruct (sleep_debt_of s).
    + rewrite bool_decide_eq_true_2; reflexivity.
    + rewrite bool_decide_eq_false_2; [reflexivity | discriminate].
  - destruct (opt_str_eq (cycle_phase s) "late_luteal") eqn:Hll.
    + rewrite bool_decide_eq_true_2; [reflexivity | apply opt_str_eq_true, Hll].
    + rewrite bool_decide_eq_false_2; [reflexivity | apply opt_str_eq_false, Hll].
Qed.

(** C7, as the code has it: the note of the follicular and ovulatory
    phases is spelled with a typographic apostrophe (U+2019), the late
    luteal phase has its own note, and any other phase, or none, has no
    note. *)
Theorem cycle_note_cases (s : DailySummary) :
  exists p,
    generate_plan s = Ok p /\
    (cycle_phase s = Some "follicular" \/ cycle_phase s = Some "ovulatory" ->
     cycle_note p =
     Some "You’re in a high-performance window—OK to push intensity if you feel fresh.") /\
    (cycle_phase s = Some "late_luteal" ->
     cycle_note p = Some "Late luteal—deload 15–25% and favor low-impact work.") /\
    (cycle_phase s <> Some "follicular" -> cycle_phase s <> Some "ovulatory" ->
     cycle_phase s <> Some "late_luteal" ->
     cycle_note p = None).
Proof.
  destruct (generate_plan_eq s) as (fl & focus & _ & _ & _ & _ & _ & _ & _ & _ & Hplan).
  eexists. split; [exact Hplan|]. cbn [cycle_note].
  pose proof (opt_str_in_two (cycle_phase s) "follicular" "ovulatory") as Hin.
  pose proof (opt_str_eq_true (cycle_phase s) "late_luteal") as Hll.
  destruct (opt_str_in (cycle_phase s) ["follicular"; "ovulatory"]).
  - split; [reflexivity|]. split.
    + intros H. destruct Hin as [Hin _].
      destruct (Hin eq_refl) as [H' | H']; rewrite H' in H; discriminate.
    + intros H1 H2 _. destruct Hin as [Hin _]. destruct (Hin eq_refl); contradiction.
  - split; [intros H; apply Hin in H; discriminate|].
    destruct (opt_str_eq (cycle_phase s) "late_luteal").
    + split; [reflexivity|]. intros _ _ H. exfalso. apply H, Hll. reflexivity.
    + split; [|reflexivity]. intros H. apply Hll in H. discriminate.
Qed.

(** C7, as stated (ASCII apostrophe), fails on a follicular day. *)
Lemma cycle_note_ascii_apostrophe_fails :
  exists p,
    generate_plan (bare_day (Some "follicular") [] 30) = Ok p /\
    cycle_phase (bare_day (Some "follicular") [] 30) = Some "follicular" /\
    cycle_note p <>
    Some "You're in a high-performance window—OK to push intensity if you feel fresh.".
Proof.
  eexists. split; [reflexivity|]. split; [reflexivity|].
  cbn [cycle_note]. discriminate.
Qed.


(** ** The session block composer *)

(** C4: with "renovation" among the context tags, the blocks of
    "Speed / Strength" are those of the default focus in the same band
    and not the Speed/Strength ones; for 20 minutes they are the
    Band B default set; and the blocks of "Recovery / Deload" do not
    depend on the context at all. *)
Theorem renovation_replaces_speed :
  (forall (t : Z) (ctx other : list string),
      In "renovation" ctx ->
      _short_session_blocks "Speed / Strength" t ctx =
      _short_session_blocks "Aerobic Base / Skills" t other /\
      _short_session_blocks "Speed / Strength" t ctx <>
      _short_session_blocks "Speed / Strength" t []) /\
  (forall ctx : list string,
      In "renovation" ctx ->
      _short_session_blocks "Speed / Strength" 20 ctx =
      [ mkBlock "Z2 run / bike" 20 ["HR < 75% max"];
        mkBlock "Mobility" 8 ["hips"; "glutes"] ]) /\
  (forall (t : Z) (ctx other : list string),
      _short_session_blocks "Recovery / Deload" t ctx =
      _short_session_blocks "Recovery / Deload" t other).
Proof.
  split; [|split].
  - intros t ctx other Hin. apply str_in_true in Hin.
    split.
    + by_band t; rewrite Hin; reflexivity.
    + by_band t; rewrite Hin; vm_compute; discriminate.
  - intros ctx Hin. apply str_in_true in Hin.
    unfold _short_session_blocks. rewrite Hin. reflexivity.
  - intros t ctx other. by_band t; reflexivity.
Qed.

(** C5: above 30 minutes the composer returns the Band C set of the
    given focus, the same for every such time: the 25/10/10 set for
    "Recovery / Deload", the 15/20/8 set for "Speed / Strength" off a
    renovation day, and "Z2 long" (35 min) followed by "Technique"
    (10 min) in every other case; in particular for
    "Aerobic Base / Skills" and 45 minutes. *)
Theorem band_c_uniform (focus : string) (t t' : Z) (ctx : list string) :
  30 < t -> 30 < t' ->
  (focus = "Recovery / Deload" ->
   _short_session_blocks focus t ctx =
   [ mkBlock "Z2 run / bike" 25 ["HR < 75% max"];
     mkBlock "Mobility" 10 ["full lower + t-spine"];
     mkBlock "Core" 10 ["side plank 3×30″"; "dead-bug 3×10"] ]) /\
  (focus = "Speed / Strength" -> ~ In "renovation" ctx ->
   _short_session_blocks focus t ctx =
   [ mkBlock "Accel + Plyo" 15
       ["boots: 4×20 m accel"; "fly 2×20 m"; "broad jump 3×3"];
     mkBlock "Strength (at-home)" 20
       ["backpack front squat 4×6"; "single-leg RDL 3×8-e"];
     mkBlock "Core" 8 ["pallof press 3×8-e"] ]) /\
  (focus <> "Recovery / Deload" ->
   focus <> "Speed / Strength" \/ In "renovation" ctx ->
   _short_session_blocks focus t ctx =
   [ mkBlock "Z2 long" 35 ["HR < 75% max"];
     mkBlock "Technique" 10 ["passing / ball-handling (trainers)"] ]) /\
  _short_session_blocks focus t ctx = _short_session_blocks focus t' ctx /\
  _short_session_blocks "Aerobic Base / Skills" 45 ctx =
  [ mkBlock "Z2 long" 35 ["HR < 75% max"];
    mkBlock "Technique" 10 ["passing / ball-handling (trainers)"] ].
Proof.
  intros Ht Ht'. unfold _short_session_blocks.
  assert (Z.leb t 15 = false) as -> by (apply Z.leb_gt; lia).
  assert (Z.leb t 30 = false) as -> by (apply Z.leb_gt; lia).
  assert (Z.leb t' 15 = false) as -> by (apply Z.leb_gt; lia).
  assert (Z.leb t' 30 = false) as -> by (apply Z.leb_gt; lia).
  split; [|split; [|split; [|split; reflexivity]]].
  - intros ->. reflexivity.
  - intros -> Hreno.
    destruct (str_in "renovation" ctx) eqn:Hin; [|reflexivity].
    exfalso. apply Hreno, str_in_true, Hin.
  - intros Hrec Hother. apply String.eqb_neq in Hrec. rewrite Hrec.
    destruct Hother as [Hsp | Hreno].
    + apply String.eqb_neq in Hsp. rewrite Hsp. reflexivity.
    + apply str_in_true in Hreno. rewrite Hreno, andb_false_r. reflexivity.
Qed.

Lemma band_c_uniform_witness :
  ("Aerobic Base / Skills" = "Recovery / Deload" ->
   _short_session_blocks "Aerobic Base / Skills" 45 ["holiday"] =
   [ mkBlock "Z2 run / bike" 25 ["HR < 75% max"];
     mkBlock "Mobility" 10 ["full lower + t-spine"];
     mkBlock "Core" 10 ["side plank 3×30″"; "dead-bug 3×10"] ]) /\
  ("Aerobic Base / Skills" = "Speed / Strength" -> ~ In "renovation" ["holiday"] ->
   _short_session_blocks "Aerobic Base / Skills" 45 ["holiday"] =
   [ mkBlock "Accel + Plyo" 15
       ["boots: 4×20 m accel"; "fly 2×20 m"; "broad jump 3×3"];
     mkBlock "Strength (at-home)" 20
       ["backpack front squat 4×6"; "single-leg RDL 3×8-e"];
     mkBlock "Core" 8 ["pallof press 3×8-e"] ]) /\
  ("Aerobic Base / Skills" <> "Recovery / Deload" ->
   "Aerobic Base / Skills" <> "Speed / Strength" \/ In "renovation" ["holiday"] ->
   _short_session_blocks "Aerobic Base / Skills" 45 ["holiday"] =
   [ mkBlock "Z2 long" 35 ["HR < 75% max"];
     mkBlock "Technique" 10 ["passing / ball-handling (trainers)"] ]) /\
  _short_session_blocks "Aerobic Base / Skills" 45 ["holiday"] = _short_session_blocks "Aerobic Base / Skills" 600 ["holiday"] /\
  _short_session_blocks "Aerobic Base / Skills" 45 ["holiday"] =
  [ mkBlock "Z2 long" 35 ["HR < 75% max"];
    mkBlock "Technique" 10 ["passing / ball-handling (trainers)"] ].
Proof.
  apply (band_c_uniform "Aerobic Base / Skills" 45 600 ["holiday"]); lia.
Defined.

(** C9: whatever the focus, the time and the context, the composer
    returns one to three blocks, each with a name, a positive duration
    and at least one content line; the sessions of a plan are never
    empty. *)
Theorem blocks_well_formed :
  (forall (focus : string) (t : Z) (ctx : list string),
      (1 <= length (_short_session_blocks focus t ctx) <= 3)%nat /\
      Forall (fun b => name b <> "" /\ 0 < duration_min b /\ content b <> [])
             (_short_session_blocks focus t ctx)) /\
  (forall s : DailySummary,
      exists p, generate_plan s = Ok p /\ sessions p <> []).
Proof.
  assert (forall focus t ctx,
             (1 <= length (_short_session_blocks focus t ctx) <= 3)%nat /\
             Forall (fun b => name b <> "" /\ 0 < duration_min b /\ content b <> [])
                    (_short_session_blocks focus t ctx)) as Hblocks.
  { intros focus t ctx. by_band t; case_guards;
      (split; [cbn [length]; lia
              | repeat constructor; cbn [name duration_min content];
                first [discriminate | lia]]). }
  split; [exact Hblocks|].
  intros s.
  destruct (generate_plan_eq s) as (fl & focus & _ & _ & _ & _ & _ & _ & _ & _ & Hplan).
  eexists. split; [exact Hplan|]. cbn [sessions].
  destruct (Hblocks focus (time_min s) (context s)) as [[Hlen _] _].
  intros Hnil. rewrite Hnil in Hlen. cbn in Hlen. lia.
Qed.

(** C10: the blocks can outlast the time available. With 31 minutes
    and no reading the plan is an "Aerobic Base / Skills" one whose
    blocks add up to 45 minutes, 14 more than available; above 30
    minutes every block set adds up to 43 or 45 minutes. *)
Theorem band_c_overruns :
  (exists s p,
      generate_plan s = Ok p /\
      time_min s < total_minutes (sessions p)) /\
  (exists p,
      generate_plan (bare_day None [] 31) = Ok p /\
      day_focus p = "Aerobic Base / Skills" /\
      total_minutes (sessions p) = 45 /\
      total_minutes (sessions p) = time_min (bare_day None [] 31) + 14) /\
  (forall (focus : string) (t : Z) (ctx : list string),
      30 < t ->
      total_minutes (_short_session_blocks focus t ctx) = 43 \/
      total_minutes (_short_session_blocks focus t ctx) = 45).
Proof.
  split; [|split].
  - exists (bare_day None [] 31). eexists. split; [reflexivity|]. reflexivity.
  - eexists. split; [reflexivity|]. repeat split.
  - intros focus t ctx Ht. unfold _short_session_blocks.
    assert (Z.leb t 15 = false) as -> by (apply Z.leb_gt; lia).
    assert (Z.leb t 30 = false) as -> by (apply Z.leb_gt; lia).
    case_guards; cbn; auto.
Qed.

(** With no reading, no phase and ten minutes the plan is the single
    brisk walk of the default focus. *)
Example bare_ten_minutes :
  exists p,
    generate_plan (bare_day None [] 10) = Ok p /\
    day_focus p = "Aerobic Base / Skills" /\
    sessions p = [ mkBlock "Z2 brisk walk" 12 ["RPE 3–4"] ] /\
    cycle_note p = None.
Proof. eexists. split; [reflexivity|]. repeat split. Qed.

(** ** Further properties of [rules.py] *)

Local Open Scope float_scope.

(** X1: [sleep_debt] is a boolean of the dictionary, true iff
    [sleep_min] is present and below 360; exactly 360 minutes, or no
    sleep reading, leaves it false. *)
Theorem sleep_debt_iff (s : DailySummary) :
  exists fl b,
    compute_flags s = Ok fl /\
    fl !! "sleep_debt" = Some b /\
    (b = true <-> exists m, sleep_min s = Some m /\ (m < 360)%Z) /\
    (sleep_min s = Some 360%Z \/ sleep_min s = None -> b = false).
Proof.
  destruct (compute_flags_lookup s) as (fl & Hfl & _ & _ & Hc & _).
  exists fl, (sleep_debt_of s). split; [assumption|]. split; [assumption|].
  unfold sleep_debt_of. destruct (sleep_min s) as [m|].
  - split.
    + rewrite Z.ltb_lt. split; [eauto|].
      intros (m' & Hm & Hlt). injection Hm as <-. exact Hlt.
    + intros [Hm | Hm]; [|discriminate]. injection Hm as ->. reflexivity.
  - split; [|reflexivity].
    split; [discriminate|]. intros (m & Hm & _). discriminate.
Qed.

(** X2: [high_load] is a boolean of the dictionary, true iff [load_7d]
    is present and strictly above 600; a load of exactly 600, a load of
    0, or no load at all, leaves it false. *)
Theorem high_load_iff (s : DailySummary) :
  exists fl b,
    compute_flags s = Ok fl /\
    fl !! "high_load" = Some b /\
    (b = true <-> exists l, load_7d s = Some l /\ PrimFloat.ltb 600 l = true) /\
    (load_7d s = Some 600 \/ load_7d s = Some 0 \/ load_7d s = None -> b = false).
Proof.
  destruct (compute_flags_lookup s) as (fl & Hfl & _ & _ & _ & Hd & _).
  exists fl, (high_load_of s). split; [assumption|]. split; [assumption|].
  unfold high_load_of. destruct (load_7d s) as [l|].
  - split.
    + split; [eauto|].
      intros (l' & Hl & Hlt). injection Hl as <-. exact Hlt.
    + intros [Hl | [Hl | Hl]]; try discriminate; injection Hl as ->; reflexivity.
  - split; [|reflexivity].
    split; [discriminate|]. intros (l & Hl & _). discriminate.
Qed.

Local Close Scope float_scope.

(** X3: [late_luteal] is a boolean of the dictionary, true iff the
    phase is present and is the string "late_luteal". *)
Theorem late_luteal_iff (s : DailySummary) :
  exists fl b,
    compute_flags s = Ok fl /\
    fl !! "late_luteal" = Some b /\
    (b = true <-> cycle_phase s = Some "late_luteal").
Proof.
  destruct (compute_flags_lookup s) as (fl & Hfl & _ & _ & _ & _ & He).
  exists fl, (late_luteal_of s). split; [assumption|]. split; [assumption|].
  apply opt_str_eq_true.
Qed.

(** Raising a flag that is already a key adds no key. *)
Lemma dom_raise_flag (fl : gmap string bool) (k : string) (b : bool) :
  k ∈ dom fl ->
  dom (if b then <[k := true]> fl else fl) = dom fl.
Proof.
  intros Hk. destruct b; [|reflexivity].
  rewrite dom_insert_L. apply set_eq. intros x.
  rewrite elem_of_union, elem_of_singleton. split; [intros [->|Hx]; assumption | auto].
Qed.

(** The dictionary of [compute_flags]: the initial one, with each of the
    four measured flags raised when its guard holds. *)
Lemma compute_flags_eq (s : DailySummary) :
  compute_flags s =
  Ok (let fl : gmap string bool :=
        <["low_hrv" := false]>
        (<["high_rhr" := false]>
        (<["sleep_debt" := false]>
        (<["high_load" := false]>
        (<["late_luteal" := late_luteal_of s]> ∅)))) in
      let fl := if low_hrv_of s then <["low_hrv" := true]> fl else fl in
      let fl := if high_rhr_of s then <["high_rhr" := true]> fl else fl in
      let fl := if sleep_debt_of s then <["sleep_debt" := true]> fl else fl in
      if high_load_of s then <["high_load" := true]> fl else fl).
Proof.
  unfold compute_flags. rewrite !_percent_delta_eq.
  unfold low_hrv_of, high_rhr_of, sleep_debt_of, high_load_of, late_luteal_of.
  destruct (delta_of (hrv_ms s) (avg7_hrv_ms s)) as [dh|];
    destruct (delta_of (rhr_bpm s) (avg7_rhr_bpm s)) as [dr|];
    destruct (sleep_min s) as [m|];
    destruct (load_7d s) as [l|];
    reflexivity.
Qed.

(** X4: the dictionary of [compute_flags] has the five flag names as
    its keys and no other key, whatever the readings. *)
Theorem compute_flags_keys (s : DailySummary) :
  exists fl,
    compute_flags s = Ok fl /\
    dom fl = ({["low_hrv"; "high_rhr"; "sleep_debt"; "high_load"; "late_luteal"]} : gset string).
Proof.
  eexists. split; [apply compute_flags_eq|].
  cbv zeta.
  set (five := ({["low_hrv"; "high_rhr"; "sleep_debt"; "high_load"; "late_luteal"]} : gset string)).
  assert (forall (fl : gmap string bool) (k : string) (b : bool),
             dom fl = five -> k ∈ five ->
             dom (if b then <[k := true]> fl else fl) = five) as Hstep.
  { intros fl k b Hfl Hk. rewrite dom_raise_flag; [exact Hfl | rewrite Hfl; exact Hk]. }
  repeat (apply Hstep; [|subst five; set_solver]).
  subst five. rewrite !dom_insert_L, dom_empty_L. set_solver.
Qed.

(** X5: [_pick_focus] reads the five keys in order and stops at the
    first flag that is true. When the keys before [k] hold [false], a
    dictionary without [k] raises [KeyError k], and a dictionary with
    [k] true gives "Recovery / Deload" without reading any later key. *)
Theorem pick_focus_key_error (fl : gmap string bool) (ph : option string)
        (pre post : list string) (k : string) :
  flag_keys = (pre ++ k :: post)%list ->
  Forall (fun j => fl !! j = Some false) pre ->
  (fl !! k = None -> _pick_focus fl ph = Raise (KeyError k)) /\
  (fl !! k = Some true -> _pick_focus fl ph = Ok "Recovery / Deload").
Proof.
  intros Hkeys Hpre. unfold flag_keys in Hkeys.
  unfold _pick_focus, or_, getitem.
  destruct pre as [|p1 [|p2 [|p3 [|p4 [|p5 pre]]]]];
    cbn in Hkeys; injection Hkeys as <-; intros; subst;
    repeat match goal with
           | H : Forall _ (_ :: _) |- _ => inversion H as [|? ? ?Hhd ?Htl]; subst; clear H
           end;
    repeat match goal with
           | H : fl !! _ = Some false |- _ => rewrite H; clear H
           end.
  1-5: split; intros ->; reflexivity.
  destruct pre; discriminate.
Qed.

Lemma pick_focus_key_error_witness :
  (only_low_hrv false !! "high_rhr" = None ->
   _pick_focus (only_low_hrv false) None = Raise (KeyError "high_rhr")) /\
  (only_low_hrv false !! "high_rhr" = Some true ->
   _pick_focus (only_low_hrv false) None = Ok "Recovery / Deload").
Proof.
  apply (pick_focus_key_error (only_low_hrv false) None ["low_hrv"]
           ["sleep_debt"; "high_load"; "late_luteal"] "high_rhr").
  - reflexivity.
  - repeat constructor.
Defined.

(** X6: the blocks always add up to between 12 and 45 minutes. They
    stay within 15 minutes when at most 15 are available and within 28
    when at most 30 are; they fit the time available from 45 minutes
    on, and never fit when fewer than 12 minutes are available. *)
Theorem blocks_duration_bounds (focus : string) (t : Z) (ctx : list string) :
  12 <= total_minutes (_short_session_blocks focus t ctx) <= 45 /\
  (t <= 15 -> total_minutes (_short_session_blocks focus t ctx) <= 15) /\
  (t <= 30 -> total_minutes (_short_session_blocks focus t ctx) <= 28) /\
  (45 <= t -> total_minutes (_short_session_blocks focus t ctx) <= t) /\
  (t < 12 -> t < total_minutes (_short_session_blocks focus t ctx)).
Proof.
  by_band t; band_facts; case_guards; cbn; repeat split; intros; lia.
Qed.

(** X7: the context matters only through the presence of
    "renovation": two contexts that agree on it give the same blocks. *)
Theorem context_only_renovation (focus : string) (t : Z) (ctx ctx' : list string) :
  (In "renovation" ctx <-> In "renovation" ctx') ->
  _short_session_blocks focus t ctx = _short_session_blocks focus t ctx'.
Proof.
  intros Hiff.
  assert (str_in "renovation" ctx = str_in "renovation" ctx') as Heq.
  { rewrite <- !str_in_true in Hiff.
    destruct (str_in "renovation" ctx), (str_in "renovation" ctx');
      try reflexivity; destruct Hiff as [H1 H2];
      [specialize (H1 eq_refl) | specialize (H2 eq_refl)]; discriminate. }
  unfold _short_session_blocks. rewrite Heq. reflexivity.
Qed.

Lemma context_only_renovation_witness :
  _short_session_blocks "Speed / Strength" 20 ["holiday"; "travel"] =
  _short_session_blocks "Speed / Strength" 20 [].
Proof.
  apply (context_only_renovation "Speed / Strength" 20 ["holiday"; "travel"] []).
  split; cbn; intuition discriminate.
Defined.

(** X8: a focus that is neither "Recovery / Deload" nor
    "Speed / Strength" (comparison is exact, so any other spelling
    counts) gets the blocks of "Aerobic Base / Skills", whatever the
    context. *)
Theorem unknown_focus_is_default (focus : string) (t : Z) (ctx ctx' : list string) :
  focus <> "Recovery / Deload" ->
  focus <> "Speed / Strength" ->
  _short_session_blocks focus t ctx =
  _short_session_blocks "Aerobic Base / Skills" t ctx'.
Proof.
  intros Hr Hs. apply String.eqb_neq in Hr, Hs.
  unfold _short_session_blocks. rewrite Hr, Hs. reflexivity.
Qed.

Lemma unknown_focus_is_default_witness :
  _short_session_blocks "recovery / deload" 20 [] =
  _short_session_blocks "Aerobic Base / Skills" 20 ["renovation"].
Proof.
  apply (unknown_focus_is_default "recovery / deload" 20 [] ["renovation"]);
    discriminate.
Defined.

(** The blocks of a focus other than "Speed / Strength", or of any
    focus on a renovation day, hold no heavy block. *)
Lemma light_blocks (focus : string) (t : Z) (ctx : list string) (b : Block) :
  String.eqb focus "Speed / Strength" && negb (str_in "renovation" ctx) = false ->
  In b (_short_session_blocks focus t ctx) ->
  ~ In (name b) heavy_names.
Proof.
  intros Hlight Hin Hheavy. unfold _short_session_blocks in Hin.
  rewrite Hlight in Hin. unfold heavy_names in Hheavy.
  destruct (Z.leb t 15); [|destruct (Z.leb t 30)];
    destruct (String.eqb focus "Recovery / Deload");
    cbn in Hin;
    repeat (destruct Hin as [<- | Hin]; [cbn in Hheavy; intuition discriminate|]);
    exact Hin.
Qed.

(** X9: a plan holds an acceleration, plyometrics or strength block
    only if its focus is "Speed / Strength", "renovation" is not in the
    context, the phase is follicular or ovulatory and the five flags
    are false. *)
Theorem heavy_blocks_are_gated (s : DailySummary) (p : Plan) (b : Block) :
  generate_plan s = Ok p ->
  In b (sessions p) ->
  In (name b) heavy_names ->
  day_focus p = "Speed / Strength" /\
  ~ In "renovation" (context s) /\
  (cycle_phase s = Some "follicular" \/ cycle_phase s = Some "ovulatory") /\
  Forall (fun k => flags p !! k = Some false) flag_keys.
Proof.
  intros Hgen Hin Hheavy.
  destruct (generate_plan_eq s)
    as (fl & focus & _ & Ha & Hb & Hc & Hd & He & _ & Hfocus & Hplan).
  rewrite Hplan in Hgen. injection Hgen as <-. cbn [sessions day_focus flags] in *.
  destruct (String.eqb focus "Speed / Strength" && negb (str_in "renovation" (context s)))
    eqn:Hspeed.
  2: { exfalso. eapply light_blocks; eassumption. }
  apply andb_true_iff in Hspeed as [Hsp Hreno].
  apply String.eqb_eq in Hsp. apply negb_true_iff in Hreno.
  split; [exact Hsp|]. split.
  { intros Hr. apply str_in_true in Hr. congruence. }
  rewrite Hsp in Hfocus.
  destruct (low_hrv_of s || high_rhr_of s || sleep_debt_of s || high_load_of s
            || late_luteal_of s) eqn:Hred; [discriminate|].
  destruct (opt_str_in (cycle_phase s) ["follicular"; "ovulatory"]) eqn:Hph;
    [|discriminate].
  split; [apply opt_str_in_two; exact Hph|].
  repeat (apply orb_false_iff in Hred as [Hred ?]).
  unfold flag_keys. repeat constructor; congruence.
Qed.

Lemma heavy_blocks_are_gated_witness :
  exists p,
    generate_plan (bare_day (Some "follicular") [] 20) = Ok p /\
    day_focus p = "Speed / Strength" /\
    ~ In "renovation" (context (bare_day (Some "follicular") [] 20)) /\
    (cycle_phase (bare_day (Some "follicular") [] 20) = Some "follicular" \/
     cycle_phase (bare_day (Some "follicular") [] 20) = Some "ovulatory") /\
    Forall (fun k => flags p !! k = Some false) flag_keys.
Proof.
  eexists. split; [reflexivity|].
  apply (heavy_blocks_are_gated (bare_day (Some "follicular") [] 20) _
           (mkBlock "Strength (at-home)" 10 ["backpack split squat 3×8-e"])).
  - reflexivity.
  - cbn. auto.
  - cbn. auto.
Defined.

(** X10: in the late luteal phase, whatever the readings, the plan is
    a "Recovery / Deload" one with the [late_luteal] flag set, the late
    luteal note, the mobility line closing the recovery list and no
    heavy block. *)
Theorem late_luteal_day (s : DailySummary) :
  cycle_phase s = Some "late_luteal" ->
  exists p,
    generate_plan s = Ok p /\
    day_focus p = "Recovery / Deload" /\
    flags p !! "late_luteal" = Some true /\
    cycle_note p = Some "Late luteal—deload 15–25% and favor low-impact work." /\
    last (recovery p) = Some "Gentle p.m. mobility 10 min; prioritize sleep." /\
    Forall (fun b => ~ In (name b) heavy_names) (sessions p).
Proof.
  intros Hph.
  destruct (generate_plan_eq s)
    as (fl & focus & _ & _ & _ & _ & _ & He & _ & Hfocus & Hplan).
  assert (late_luteal_of s = true) as Hll by (apply opt_str_eq_true, Hph).
  rewrite Hll, orb_true_r in Hfocus. subst focus.
  rewrite Hll in He, Hplan. rewrite Hph in Hplan.
  eexists. split; [exact Hplan|]. cbn [day_focus flags cycle_note recovery sessions].
  split; [reflexivity|]. split; [exact He|]. split; [reflexivity|].
  split; [destruct (sleep_debt_of s); reflexivity|].
  apply List.Forall_forall. intros b Hb. eapply light_blocks; [|exact Hb]. reflexivity.
Qed.

Lemma late_luteal_day_witness :
  exists p,
    generate_plan (bare_day (Some "late_luteal") ["holiday"] 45) = Ok p /\
    day_focus p = "Recovery / Deload" /\
    flags p !! "late_luteal" = Some true /\
    cycle_note p = Some "Late luteal—deload 15–25% and favor low-impact work." /\
    last (recovery p) = Some "Gentle p.m. mobility 10 min; prioritize sleep." /\
    Forall (fun b => ~ In (name b) heavy_names) (sessions p).
Proof.
  apply (late_luteal_day (bare_day (Some "late_luteal") ["holiday"] 45)).
  reflexivity.
Defined.

(** X11: the cycle note depends on the phase only: two days in the
    same phase get the same note, whatever their readings, context and
    time. *)
Theorem cycle_note_ignores_flags (s1 s2 : DailySummary) :
  cycle_phase s1 = cycle_phase s2 ->
  exists p1 p2,
    generate_plan s1 = Ok p1 /\ generate_plan s2 = Ok p2 /\
    cycle_note p1 = cycle_note p2.
Proof.
  intros Hph.
  destruct (generate_plan_eq s1) as (? & ? & _ & _ & _ & _ & _ & _ & _ & _ & Hp1).
  destruct (generate_plan_eq s2) as (? & ? & _ & _ & _ & _ & _ & _ & _ & _ & Hp2).
  eexists _, _. split; [exact Hp1|]. split; [exact Hp2|].
  cbn [cycle_note]. rewrite Hph. reflexivity.
Qed.

Lemma cycle_note_ignores_flags_witness :
  exists p1 p2,
    generate_plan short_night_day = Ok p1 /\
    generate_plan (bare_day (Some "follicular") [] 20) = Ok p2 /\
    cycle_note p1 = cycle_note p2.
Proof.
  apply (cycle_note_ignores_flags short_night_day (bare_day (Some "follicular") [] 20)).
  reflexivity.
Defined.

(** X12: the note of the follicular and ovulatory phases is not
    withdrawn by a red flag: after a night under six hours the plan is
    a "Recovery / Deload" one and still says it is OK to push
    intensity. *)
Theorem push_note_on_recovery_day (s : DailySummary) (m : Z) :
  cycle_phase s = Some "follicular" \/ cycle_phase s = Some "ovulatory" ->
  sleep_min s = Some m ->
  m < 360 ->
  exists p,
    generate_plan s = Ok p /\
    day_focus p = "Recovery / Deload" /\
    cycle_note p =
    Some "You’re in a high-performance window—OK to push intensity if you feel fresh.".
Proof.
  intros Hph Hm Hlt.
  destruct (generate_plan_eq s)
    as (fl & focus & _ & _ & _ & _ & _ & _ & _ & Hfocus & Hplan).
  assert (sleep_debt_of s = true) as Hsd.
  { unfold sleep_debt_of. rewrite Hm. apply Z.ltb_lt, Hlt. }
  rewrite Hsd, !orb_true_r in Hfocus. cbn [orb] in Hfocus.
  apply opt_str_in_two in Hph.
  eexists. split; [exact Hplan|]. cbn [day_focus cycle_note].
  rewrite Hph. split; [exact Hfocus | reflexivity].
Qed.

Lemma push_note_on_recovery_day_witness :
  exists p,
    generate_plan short_night_day = Ok p /\
    day_focus p = "Recovery / Deload" /\
    cycle_note p =
    Some "You’re in a high-performance window—OK to push intensity if you feel fresh.".
Proof.
  apply (push_note_on_recovery_day short_night_day 300).
  - left. reflexivity.
  - reflexivity.
  - lia.
Defined.

(** X13: within a band the blocks do not depend on the time: every
    time up to 15 minutes, zero and negative ones included, gives the
    blocks of 15 minutes, and every time from 16 to 30 gives those of
    30; the blocks change between 15 and 16 and between 30 and 31
    minutes. *)
Theorem band_edges (focus : string) (ctx : list string) :
  (forall t, t <= 15 ->
     _short_session_blocks focus t ctx = _short_session_blocks focus 15 ctx) /\
  (forall t, 15 < t <= 30 ->
     _short_session_blocks focus t ctx = _short_session_blocks focus 30 ctx) /\
  _short_session_blocks focus 15 ctx <> _short_session_blocks focus 16 ctx /\
  _short_session_blocks focus 30 ctx <> _short_session_blocks focus 31 ctx.
Proof.
  split; [|split; [|split]].
  - intros t Ht. unfold _short_session_blocks.
    assert (Z.leb t 15 = true) as -> by (apply Z.leb_le; lia). reflexivity.
  - intros t Ht. unfold _short_session_blocks.
    assert (Z.leb t 15 = false) as -> by (apply Z.leb_gt; lia).
    assert (Z.leb t 30 = true) as -> by (apply Z.leb_le; lia). reflexivity.
  - unfold _short_session_blocks. cbn [Z.leb Z.compare Pos.compare Pos.compare_cont].
    case_guards; discriminate.
  - unfold _short_session_blocks. cbn [Z.leb Z.compare Pos.compare Pos.compare_cont].
    case_guards; discriminate.
Qed.

(** ** Properties of [telegram_utils.py] *)

Section Messages.

Lemma blocks_well_formed_length (focus : string) (t : Z) (ctx : list string) :
  (1 <= length (_short_session_blocks focus t ctx) <= 3)%nat.
Proof. by_band t; case_guards; cbn [length]; lia. Qed.

Lemma line_count_app (a b : string) :
  line_count (a ++ b) = (line_count a + line_count b)%nat.
Proof.
  unfold line_count. induction a as [|c a IH]; [reflexivity|].
  change (String c a ++ b) with (String c (a ++ b)).
  cbn [count_char]. rewrite IH. lia.
Qed.

Lemma line_count_uint (d : Decimal.uint) :
  line_count (NilEmpty.string_of_uint d) = 0%nat.
Proof. induction d; cbn; auto. Qed.

Lemma line_count_str_of_int (n : Z) : line_count (str_of_int n) = 0%nat.
Proof.
  unfold str_of_int, NilZero.string_of_int, NilZero.string_of_uint.
  destruct (Z.to_int n) as [d|d]; destruct d; cbn;
    try reflexivity; apply line_count_uint.
Qed.

Lemma line_count_concat (sep : string) (l : list string) :
  single_line sep -> Forall single_line l ->
  line_count (String.concat sep l) = 0%nat.
Proof.
  intros Hsep Hl. induction Hl as [|x l Hx Hl IH]; [reflexivity|].
  cbn [String.concat]. destruct l as [|y l]; [exact Hx|].
  rewrite !line_count_app, Hx, Hsep, IH. reflexivity.
Qed.

(** A loop that appends one line per element adds as many lines as
    there are elements. *)
Lemma line_count_loop {A : Type} (f : A -> string) (l : list A) (init : string) :
  Forall (fun x => line_count (f x) = 1%nat) l ->
  line_count (fold_left (fun msg x => msg ++ f x) l init) =
  (line_count init + length l)%nat.
Proof.
  intros Hl. revert init. induction Hl as [|x l Hx Hl IH]; intros init.
  - cbn [fold_left length]. lia.
  - cbn [fold_left length]. rewrite IH, line_count_app, Hx. lia.
Qed.

End Messages.

(** The lines of a message: a heading and a closing line, two section
    titles, one line per block and per recovery item, and the cycle
    note when there is one. *)
Lemma format_plan_lines (p : Plan) :
  single_line_plan p ->
  line_count (format_plan_for_telegram p) =
  (4 + length (sessions p) + length (recovery p)
   + (if truthy (cycle_note p) then 1 else 0))%nat.
Proof.
  intros (Hfocus & Hblocks & Hrec & Hnote & Hnotes).
  unfold format_plan_for_telegram.
  assert (forall m, line_count
            (if truthy (cycle_note p)
             then m ++ ("*Cycle Note:* " ++ default "" (cycle_note p) ++ newline)
             else m) =
          (line_count m + (if truthy (cycle_note p) then 1 else 0))%nat) as Hcn.
  { intros m. destruct (truthy (cycle_note p)); [|lia].
    rewrite !line_count_app, Hnote. reflexivity. }
  rewrite line_count_app, Hcn.
  rewrite line_count_loop.
  2: { eapply Forall_impl; [exact Hrec|]. intros r Hr.
       rewrite !line_count_app, Hr. reflexivity. }
  rewrite line_count_app, line_count_loop.
  2: { eapply Forall_impl; [exact Hblocks|]. intros b [Hn Hc].
       rewrite !line_count_app, Hn, line_count_str_of_int.
       rewrite line_count_concat; [reflexivity | reflexivity | exact Hc]. }
  rewrite !line_count_app, Hfocus, Hnotes. cbn. lia.
Qed.

(** The blocks of the catalogue are written on one line each. *)
Lemma blocks_single_line (focus : string) (t : Z) (ctx : list string) :
  Forall (fun b => single_line (name b) /\ Forall single_line (content b))
         (_short_session_blocks focus t ctx).
Proof. by_band t; case_guards; repeat constructor. Qed.

(** X14: for a plan whose strings hold no newline the message has
    four fixed lines (focus, the two section titles, notes), one line
    per block, one per recovery item, and one more for the cycle note
    unless the note is absent or empty. *)
Theorem message_line_count (p : Plan) :
  single_line_plan p ->
  line_count (format_plan_for_telegram p) =
  (4 + length (sessions p) + length (recovery p)
   + match cycle_note p with
     | Some note => if String.eqb note "" then 0 else 1
     | None => 0
     end)%nat.
Proof.
  intros Hp. rewrite (format_plan_lines p Hp).
  destruct (cycle_note p) as [[|c note]|]; reflexivity.
Qed.

Lemma message_line_count_witness :
  line_count (format_plan_for_telegram terse_plan) =
  (4 + length (sessions terse_plan) + length (recovery terse_plan)
   + match cycle_note terse_plan with
     | Some note => if String.eqb note "" then 0 else 1
     | None => 0
     end)%nat.
Proof.
  apply (message_line_count terse_plan).
  unfold single_line_plan, single_line. cbn.
  repeat split; repeat constructor.
Defined.

(** X15: the message of the plan of any day has as many lines as the
    plan has blocks and recovery items, plus four, plus one when the
    plan has a cycle note: between 6 and 11 lines. *)
Theorem plan_message_lines (s : DailySummary) :
  exists p,
    generate_plan s = Ok p /\
    (cycle_note p = None ->
     line_count (format_plan_for_telegram p) =
     (4 + length (sessions p) + length (recovery p))%nat) /\
    (cycle_note p <> None ->
     line_count (format_plan_for_telegram p) =
     (5 + length (sessions p) + length (recovery p))%nat) /\
    (6 <= line_count (format_plan_for_telegram p) <= 11)%nat.
Proof.
  destruct (generate_plan_eq s)
    as (fl & focus & _ & _ & _ & _ & _ & _ & _ & Hfocus & Hplan).
  eexists. split; [exact Hplan|].
  match goal with |- context [format_plan_for_telegram ?q] => set (p := q) end.
  assert (single_line_plan p) as Hp.
  { unfold single_line_plan, p. cbn [day_focus sessions recovery cycle_note notes].
    split; [subst focus; case_guards; reflexivity|].
    split; [apply blocks_single_line|].
    split; [case_guards; repeat constructor|].
    split; [case_guards; reflexivity | reflexivity]. }
  rewrite (format_plan_lines p Hp).
  pose proof (blocks_well_formed_length focus (time_min s) (context s)) as Hlen.
  unfold p. cbn [sessions recovery cycle_note].
  destruct (opt_str_in (cycle_phase s) ["follicular"; "ovulatory"]);
    destruct (opt_str_eq (cycle_phase s) "late_luteal");
    destruct (sleep_debt_of s); destruct (late_luteal_of s);
    cbn [truthy length app];
    (split; [intros; try discriminate; lia|]);
    (split; [intros Hn; try (exfalso; apply Hn; reflexivity); lia|]); lia.
Qed.

(** ** Properties of the OAuth state store *)

(** X16: a state is good for one validation at most: whatever the
    first call answered, and whenever the second one is made, a second
    call with the same state answers [False]. *)
Theorem state_single_use (st : gmap string Z) (now now' : Q) (s : string) :
  snd (validate_state (fst (validate_state st now s)) now' s) = false.
Proof.
  unfold validate_state at 2.
  destruct (st !! s) as [e|] eqn:Hs; cbn [fst].
  - destruct (Z.eqb e 0) eqn:He; cbn [fst].
    + unfold validate_state. rewrite Hs, He. reflexivity.
    + destruct (negb (Qle_bool now (inject_Z e))); cbn [fst];
        unfold validate_state; rewrite lookup_delete_eq; reflexivity.
  - unfold validate_state. rewrite Hs. reflexivity.
Qed.

(** X17: [validate_state] answers [True] exactly for a state that is
    in the store with a non-zero expiry that the clock has not
    passed. *)
Theorem validate_state_accepts_iff (st : gmap string Z) (now : Q) (s : string) :
  snd (validate_state st now s) = true <->
  exists e, st !! s = Some e /\ e <> 0 /\ (now <= inject_Z e)%Q.
Proof.
  unfold validate_state. destruct (st !! s) as [e|].
  - destruct (Z.eqb e 0) eqn:He.
    + apply Z.eqb_eq in He. split; [discriminate|].
      intros (e' & He' & Hnz & _). injection He' as <-. contradiction.
    + apply Z.eqb_neq in He.
      destruct (Qle_bool now (inject_Z e)) eqn:Hle; cbn [negb snd].
      * apply Qle_bool_iff in Hle. split; [eauto|reflexivity].
      * split; [discriminate|].
        intros (e' & He' & _ & Hle'). injection He' as <-.
        apply Qle_bool_iff in Hle'. congruence.
  - split; [discriminate|]. intros (e & He & _). discriminate.
Qed.

(** X18: neither validating nor making a state changes the entry of
    any other state. *)
Theorem other_states_untouched (st : gmap string Z) (now : Q) (s k : string) :
  k <> s ->
  fst (validate_state st now s) !! k = st !! k /\
  fst (make_state st s now) !! k = st !! k.
Proof.
  intros Hk. split.
  - unfold validate_state. destruct (st !! s) as [e|]; [|reflexivity].
    destruct (Z.eqb e 0); [reflexivity|].
    destruct (negb (Qle_bool now (inject_Z e))); cbn [fst];
      apply lookup_delete_ne; congruence.
  - unfold make_state. cbn [fst]. apply lookup_insert_ne. congruence.
Qed.

Lemma other_states_untouched_witness :
  fst (validate_state {["a" := 700; "b" := 900]} (800 # 1) "a") !! "b" =
  ({["a" := 700; "b" := 900]} : gmap string Z) !! "b" /\
  fst (make_state {["a" := 700; "b" := 900]} "a" (800 # 1)) !! "b" =
  ({["a" := 700; "b" := 900]} : gmap string Z) !! "b".
Proof.
  apply (other_states_untouched {["a" := 700; "b" := 900]} (800 # 1) "a" "b").
  discriminate.
Defined.

(** [int] of a non-negative clock reading is its floor. *)
Lemma int_of_float_bounds (x : Q) :
  (0 <= x)%Q ->
  0 <= int_of_float x /\
  (inject_Z (int_of_float x) <= x)%Q /\ (x < inject_Z (int_of_float x + 1))%Q.
Proof.
  intros Hx.
  assert (int_of_float x = Qfloor x) as ->.
  { destruct x as [n d]. unfold int_of_float, Qfloor. cbn [Qnum Qden].
    apply Z.quot_div_nonneg; [|reflexivity].
    unfold Qle in Hx. cbn in Hx. lia. }
  split; [|split].
  - change 0 with (Qfloor 0). apply Qfloor_resp_le, Hx.
  - apply Qfloor_le.
  - apply Qlt_floor.
Qed.

(** X19: a state made at a non-negative time is accepted up to 599
    seconds later and rejected once more than 600 seconds have
    passed. *)
Theorem fresh_state_lifetime (st : gmap string Z) (token : string) (now now' : Q) :
  (0 <= now)%Q ->
  ((now' <= now + 599)%Q ->
   snd (validate_state (fst (make_state st token now)) now' token) = true) /\
  ((now + 600 < now')%Q ->
   snd (validate_state (fst (make_state st token now)) now' token) = false).
Proof.
  intros Hnow.
  destruct (int_of_float_bounds now Hnow) as (Hnn & Hlo & Hhi).
  unfold make_state, validate_state. cbn [fst]. rewrite lookup_insert_eq.
  assert (Z.eqb (int_of_float now + 600) 0 = false) as -> by (apply Z.eqb_neq; lia).
  rewrite inject_Z_plus in *.
  change (inject_Z 600) with 600%Q. change (inject_Z 1) with 1%Q in Hhi.
  split; intros Hlt.
  - assert (Qle_bool now' (inject_Z (int_of_float now) + 600) = true) as ->;
      [|reflexivity].
    apply Qle_bool_iff. lra.
  - destruct (Qle_bool now' (inject_Z (int_of_float now) + 600)) eqn:Hle;
      [|reflexivity].
    apply Qle_bool_iff in Hle. lra.
Qed.

Lemma fresh_state_lifetime_witness :
  ((1599 # 1 <= (2001 # 2) + 599)%Q ->
   snd (validate_state (fst (make_state ∅ "tok" (2001 # 2))) (1599 # 1) "tok") = true) /\
  (((2001 # 2) + 600 < 1599 # 1)%Q ->
   snd (validate_state (fst (make_state ∅ "tok" (2001 # 2))) (1599 # 1) "tok") = false).
Proof.
  apply (fresh_state_lifetime ∅ "tok" (2001 # 2) (1599 # 1)).
  discriminate.
Defined.
